(** * aiclubbackend: VM lifecycle manager and terminal sessions

    A shallow embedding of [src/services/docker.service.ts] (the VM
    lifecycle, the port allocator and the credit metering done at stop),
    of the Mongoose schemas of [User] and [VM], of [src/config/index.ts]
    and of the terminal WebSocket handler, followed by the properties
    of the system description that are checked against them.

    Conventions of the embedding.
    - Mongo [ObjectId]s and Docker container ids are opaque keys; both are
      natural numbers here.
    - [Date.now()] and [new Date()] are an input of each operation, in
      milliseconds.
    - Every call to the Docker daemon is an input of the operation that
      makes it: the caller of a function supplies what the daemon answers
      ([Done] or [Failed] with dockerode's [statusCode]).
    - An [async] function is a state transformer that returns the state
      it leaves behind together with the value it resolves to or the error
      it rejects with: what was written before a [throw] stays written.
    - JavaScript numbers that hold integers (credits, seconds, ports) are
      in [Z]. The one fractional computation, [Math.ceil(runtime / 3600 *
      vmCostPerHour)], is the exact ceiling of [runtime * 10 / 3600]. In
      double precision the two agree for every runtime a clock can
      produce: at a multiple of 360 seconds the product [(m / 10) * 10] is
      exactly [m] (the rate is [10 = 2^3 + 2^1] and [m] is below [2^52]),
      and elsewhere the exact value is at least [1/360] away from an
      integer, far more than the rounding error below [2^40] seconds. *)

From stdpp Require Import base decidable option list gmap sets strings.
From Stdlib Require Import ZArith Lia.

Local Open Scope Z_scope.

(** ** Configuration ([src/config/index.ts]) *)

Module config.
Module vm.
Definition defaultImage : string := "ubuntu:22.04".
Definition memoryLimit : Z := 512 * 1024 * 1024.
Definition pidsLimit : Z := 100.
Definition baseSSHPort : Z := 30000.
Definition maxVMsPerUser : Z := 3.
End vm.
Module credits.
Definition default : Z := 100.
Definition vmCostPerHour : Z := 10.
End credits.
End config.

(** ** Data model ([src/models]) *)

Inductive Status := creating | running | stopped | terminated | error.

#[global] Instance Status_eq_dec : EqDecision Status.
Proof. solve_decision. Defined.

(** [IVM]. The [_id] of a document is its key in the collection. *)
Record VM := mkVM {
  ownerId : nat;
  containerId : nat;
  name : string;
  status : Status;
  ipAddress : option string;
  sshPort : Z;
  image : string;
  memoryLimit : Z;
  cpuShares : Z;
  lastStartedAt : option Z;
  lastStoppedAt : option Z;
  totalRuntime : Z;
  creditsConsumed : Z
}.

(** [IUser], reduced to the field the lifecycle manager reads and writes. *)
Record User := mkUser { credits : Z }.

(** Field assignments on an in-memory document. *)
Definition set_status (s : Status) (v : VM) : VM :=
  mkVM (ownerId v) (containerId v) (name v) s (ipAddress v) (sshPort v)
       (image v) (memoryLimit v) (cpuShares v) (lastStartedAt v)
       (lastStoppedAt v) (totalRuntime v) (creditsConsumed v).

Definition set_ipAddress (ip : option string) (v : VM) : VM :=
  mkVM (ownerId v) (containerId v) (name v) (status v) ip (sshPort v)
       (image v) (memoryLimit v) (cpuShares v) (lastStartedAt v)
       (lastStoppedAt v) (totalRuntime v) (creditsConsumed v).

Definition set_lastStartedAt (t : option Z) (v : VM) : VM :=
  mkVM (ownerId v) (containerId v) (name v) (status v) (ipAddress v)
       (sshPort v) (image v) (memoryLimit v) (cpuShares v) t
       (lastStoppedAt v) (totalRuntime v) (creditsConsumed v).

Definition set_lastStoppedAt (t : option Z) (v : VM) : VM :=
  mkVM (ownerId v) (containerId v) (name v) (status v) (ipAddress v)
       (sshPort v) (image v) (memoryLimit v) (cpuShares v)
       (lastStartedAt v) t (totalRuntime v) (creditsConsumed v).

Definition set_totalRuntime (n : Z) (v : VM) : VM :=
  mkVM (ownerId v) (containerId v) (name v) (status v) (ipAddress v)
       (sshPort v) (image v) (memoryLimit v) (cpuShares v)
       (lastStartedAt v) (lastStoppedAt v) n (creditsConsumed v).

Definition set_creditsConsumed (n : Z) (v : VM) : VM :=
  mkVM (ownerId v) (containerId v) (name v) (status v) (ipAddress v)
       (sshPort v) (image v) (memoryLimit v) (cpuShares v)
       (lastStartedAt v) (lastStoppedAt v) (totalRuntime v) n.

(** ** Terminal connections (the WebSocket module) *)

Inductive ReadyState := CONNECTING | OPEN | CLOSING | CLOSED.

#[global] Instance ReadyState_eq_dec : EqDecision ReadyState.
Proof. solve_decision. Defined.

(** Values produced by [JSON.parse]; numbers are kept integral. *)
#[warnings="-register-all"]
Inductive JSON :=
| JNull
| JBool (b : bool)
| JNumber (n : Z)
| JString (s : string)
| JArray (l : list JSON)
| JObject (fields : list (string * JSON)).

(** Frames the server sends, [JSON.stringify]'d objects with a [type]. *)
Inductive Frame :=
| FConnected
| FOutput (data : string)
| FDisconnect
| FError (message : string)
| FPong.

Record WebSocket := mkWS {
  readyState : ReadyState;
  sent : list Frame;                  (* frames passed to [ws.send], oldest first *)
  closed_with : option (Z * string)   (* code and reason of [ws.close] *)
}.

(** The exec stream returned by [attachToVM], with its [resize] closure. *)
Record ExecStream := mkStream {
  ended : bool;                       (* [stream.end()] was called *)
  written : list string;              (* chunks passed to [stream.write] *)
  resized : list (JSON * JSON)        (* arguments of the [resize] calls *)
}.

Record TerminalConnection := mkConn {
  ws : WebSocket;
  userId : nat;
  vmId : nat;
  stream : option ExecStream          (* [stream] and [resize] are set together *)
}.

(** The key [`${userId}-${vmId}-${Date.now()}`]. *)
Abbreviation ConnId := (nat * nat * Z)%type (only parsing).

(** ** Process and database state *)

Record State := mkState {
  vms : gmap nat VM;                          (* the [VM] collection *)
  users : gmap nat User;                      (* the [User] collection *)
  usedPorts : gset Z;                         (* [const usedPorts = new Set()] *)
  connections : gmap ConnId TerminalConnection (* [const connections = new Map()] *)
}.

Definition set_vms (m : gmap nat VM) (st : State) : State :=
  mkState m (users st) (usedPorts st) (connections st).
Definition set_users (m : gmap nat User) (st : State) : State :=
  mkState (vms st) m (usedPorts st) (connections st).
Definition set_usedPorts (s : gset Z) (st : State) : State :=
  mkState (vms st) (users st) s (connections st).
Definition set_connections (m : gmap ConnId TerminalConnection) (st : State) : State :=
  mkState (vms st) (users st) (usedPorts st) m.

(** ** Errors and the monad of [async] functions *)

(** One constructor per [throw new Error(...)] of the service, named after
    its message, plus the two kinds of rejection that come from outside. *)
Inductive Error :=
| MaxVMLimitReached          (* 'Maximum VM limit (3) reached' *)
| UserNotFound               (* 'User not found' *)
| InsufficientCreditsToProvision (* 'Insufficient credits to provision VM' *)
| VMNotFound                 (* 'VM not found' *)
| VMAlreadyRunning           (* 'VM is already running' *)
| CannotStartTerminated      (* 'Cannot start a terminated VM' *)
| InsufficientCreditsToStart (* 'Insufficient credits' *)
| VMNotRunning               (* 'VM is not running' *)
| DockerError (statusCode : Z) (* rejection of a dockerode call *)
| DuplicateKey               (* E11000: a unique index of the collection *)
| LoopBound.                 (* the scan of the allocator ran out of fuel;
                                never raised, see [scan_finds] *)

#[global] Instance Error_eq_dec : EqDecision Error.
Proof. solve_decision. Defined.

(** The failure classes of the system description. *)
Inductive ErrorKind :=
| QuotaExceeded | InsufficientCredits | NotFound | InvalidState
| RuntimeFailure | PersistenceFailure | Diverged.

Definition kind_of (e : Error) : ErrorKind :=
  match e with
  | MaxVMLimitReached => QuotaExceeded
  | UserNotFound => NotFound
  | InsufficientCreditsToProvision => InsufficientCredits
  | VMNotFound => NotFound
  | VMAlreadyRunning => InvalidState
  | CannotStartTerminated => InvalidState
  | InsufficientCreditsToStart => InsufficientCredits
  | VMNotRunning => InvalidState
  | DockerError _ => RuntimeFailure
  | DuplicateKey => PersistenceFailure
  | LoopBound => Diverged
  end.

Inductive Result (A : Type) :=
| Resolved (a : A)
| Rejected (e : Error).
Arguments Resolved {A} a.
Arguments Rejected {A} e.

Definition Op (A : Type) : Type := State -> State * Result A.

Definition ret {A} (a : A) : Op A := fun st => (st, Resolved a).
Definition throw {A} (e : Error) : Op A := fun st => (st, Rejected e).
Definition bind {A B} (m : Op A) (k : A -> Op B) : Op B :=
  fun st =>
    match m st with
    | (st', Resolved a) => k a st'
    | (st', Rejected e) => (st', Rejected e)
    end.
Definition gets {A} (f : State -> A) : Op A := fun st => (st, Resolved (f st)).
Definition modify (f : State -> State) : Op unit := fun st => (f st, Resolved tt).

Notation "x <- m ;; k" := (bind m (fun x => k))
  (at level 100, m at next level, right associativity).
Notation "m ;;; k" := (bind m (fun _ => k))
  (at level 100, right associativity).

(** What the outside world (the Docker daemon, the file system) answers
    to one call. *)
Inductive Outcome (A : Type) :=
| Done (a : A)
| Failed (statusCode : Z).
Arguments Done {A} a.
Arguments Failed {A} statusCode.

(** [await call]: its value, or the rejection it throws. *)
Definition docker {A} (o : Outcome A) : Op A :=
  match o with
  | Done a => ret a
  | Failed c => throw (DockerError c)
  end.

(** [try { await call } catch (err) { if (err.statusCode !== 304) throw err }] *)
Definition docker_ignore_304 (o : Outcome unit) : Op unit :=
  match o with
  | Done _ => ret tt
  | Failed c => if decide (c = 304) then ret tt else throw (DockerError c)
  end.

(** The part of [container.inspect()] the service reads: [State.Running]
    and the [IPAddress] of the first network, if any. *)
Record ContainerInfo := mkInfo { Running : bool; IPAddress : option string }.

(** ** Collections *)

(** [VM.find(query)]: the documents that satisfy the query. *)
Definition VM_find (P : VM -> Prop) `{!∀ v, Decision (P v)} : Op (list VM) :=
  gets (fun st => filter P (map_to_list (vms st)).*2).

(** [VM.findOne({ _id: vmId, ownerId: userId })] *)
Definition VM_findOne (vmId userId : nat) : Op (option VM) :=
  gets (fun st =>
          match vms st !! vmId with
          | Some v => if decide (ownerId v = userId) then Some v else None
          | None => None
          end).

(** [VM.findOne({ containerId })], with the [_id] of the document. *)
Definition VM_findOne_by_container (c : nat) : Op (option (nat * VM)) :=
  gets (fun st => head (filter (fun kv => containerId kv.2 = c) (map_to_list (vms st)))).

(** [VMSchema] declares [containerId] and [sshPort] with [unique: true]:
    the collection carries a unique index on each, over all documents of
    the collection whatever their [status]. *)
Definition violates_unique_index (v : VM) (db : gmap nat VM) : Prop :=
  Exists (fun w => containerId w = containerId v \/ sshPort w = sshPort v)
         (map_to_list db).*2.

#[global] Instance violates_unique_index_dec v db : Decision (violates_unique_index v db).
Proof. unfold violates_unique_index. apply _. Defined.

(** [await vm.save()] of a document made by [new VM({...})]: it gets a
    fresh [_id] and is inserted, unless a unique index rejects it. *)
Definition VM_insert (v : VM) : Op nat :=
  fun st =>
    if decide (violates_unique_index v (vms st)) then (st, Rejected DuplicateKey)
    else
      let id := fresh (dom (vms st)) in
      (set_vms (<[id := v]> (vms st)) st, Resolved id).

(** [await vm.save()] of a document that was read from the collection
    (no path under a unique index is modified by the service). *)
Definition VM_save (id : nat) (v : VM) : Op unit :=
  modify (fun st => set_vms (<[id := v]> (vms st)) st).

(** [User.findById(userId)] *)
Definition User_findById (uid : nat) : Op (option User) :=
  gets (fun st => users st !! uid).

(** [User.findByIdAndUpdate(userId, { $inc: { credits: delta } })]: update
    validators are not run and [$inc] is applied as it is. *)
Definition User_inc_credits (uid : nat) (delta : Z) : Op unit :=
  modify (fun st => set_users (alter (fun u => mkUser (credits u + delta)) uid (users st)) st).

(** ** Port allocator ([docker.service.ts], lines 10-34) *)

(** The ports of the documents returned by
    [VM.find({ status: { $ne: 'terminated' } })]. *)
Definition live_ports (db : gmap nat VM) : gset Z :=
  list_to_set (sshPort <$> filter (fun v => status v ≠ terminated) (map_to_list db).*2).

(** [while (usedPorts.has(port)) port++], at most [fuel] tests. *)
Fixpoint scan (fuel : nat) (used : gset Z) (port : Z) : option Z :=
  match fuel with
  | O => None
  | S fuel' =>
      if decide (port ∈ used) then scan fuel' used (port + 1) else Some port
  end.

Definition getNextAvailablePort : Op Z :=
  existingVMs <- VM_find (fun v => status v ≠ terminated) ;;
  modify (fun st => set_usedPorts (usedPorts st ∪ list_to_set (sshPort <$> existingVMs)) st) ;;;
  used <- gets usedPorts ;;
  match scan (S (size used)) used config.vm.baseSSHPort with
  | Some port =>
      modify (fun st => set_usedPorts ({[port]} ∪ usedPorts st) st) ;;;
      ret port
  | None => throw LoopBound
  end.

Definition freePort (port : Z) : Op unit :=
  modify (fun st => set_usedPorts (usedPorts st ∖ {[port]}) st).

(** ** Credit metering at stop *)

(** [Math.ceil (a / b)] for [b > 0]. *)
Definition ceil_div (a b : Z) : Z := - ((- a) / b).

(** [Math.floor((Date.now() - vm.lastStartedAt.getTime()) / 1000)] *)
Definition runtime_seconds (now started : Z) : Z := (now - started) / 1000.

(** [Math.ceil(runtime / 3600 * config.credits.vmCostPerHour)] *)
Definition creditsUsed (runtime : Z) : Z :=
  ceil_div (runtime * config.credits.vmCostPerHour) 3600.

(** ** VM lifecycle ([docker.service.ts]) *)

Record ProvisionOptions := mkOptions {
  opt_image : option string;
  opt_memoryLimit : option Z;
  opt_cpuShares : option Z
}.

(** What the outside world answers during one [provisionVM]. *)
Record ProvisionEnv := mkProvisionEnv {
  p_userDir : Outcome unit;        (* [ensureUserDirectory(userId)], a file-system call *)
  p_image : Outcome unit;          (* image [inspect], else [pull] *)
  p_create : Outcome nat;          (* [docker.createContainer], its [id] *)
  p_start : Outcome unit;          (* [container.start()] *)
  p_inspect : Outcome ContainerInfo; (* [container.inspect()] *)
  p_now : Z                        (* [new Date()] *)
}.

(** [options.x || fallback] on strings and numbers. *)
Definition string_or (o : option string) (fallback : string) : string :=
  match o with
  | Some s => if decide (s = "") then fallback else s
  | None => fallback
  end.

Definition number_or (o : option Z) (fallback : Z) : Z :=
  match o with
  | Some n => if decide (n = 0) then fallback else n
  | None => fallback
  end.

(** The query [{ ownerId: userId, status: { $in: ['running', 'stopped',
    'creating'] } }]. *)
Definition counts_for_quota (userId : nat) (v : VM) : Prop :=
  ownerId v = userId /\
  (status v = running \/ status v = stopped \/ status v = creating).

#[global] Instance counts_for_quota_dec userId v : Decision (counts_for_quota userId v).
Proof. unfold counts_for_quota. apply _. Defined.

Definition provisionVM (userId : nat) (vmName : string)
    (options : ProvisionOptions) (env : ProvisionEnv) : Op (nat * VM) :=
  existingVMs <- VM_find (counts_for_quota userId) ;;
  if decide (config.vm.maxVMsPerUser <= Z.of_nat (length existingVMs))
  then throw MaxVMLimitReached
  else
    user <- User_findById userId ;;
    match user with
    | None => throw UserNotFound
    | Some user =>
        if decide (credits user < config.credits.vmCostPerHour)
        then throw InsufficientCreditsToProvision
        else
          let image := string_or (opt_image options) config.vm.defaultImage in
          let memoryLimit := number_or (opt_memoryLimit options) config.vm.memoryLimit in
          let cpuShares := number_or (opt_cpuShares options) 512 in
          docker (p_userDir env) ;;;
          sshPort <- getNextAvailablePort ;;
          docker (p_image env) ;;;
          container <- docker (p_create env) ;;
          let vm := mkVM userId container vmName creating None sshPort image
                         memoryLimit cpuShares None None 0 0 in
          id <- VM_insert vm ;;
          docker (p_start env) ;;;
          info <- docker (p_inspect env) ;;
          let vm := set_lastStartedAt (Some (p_now env))
                      (set_ipAddress (IPAddress info) (set_status running vm)) in
          VM_save id vm ;;;
          ret (id, vm)
    end.

Record StartEnv := mkStartEnv {
  s_start : Outcome unit;            (* [container.start()] *)
  s_inspect : Outcome ContainerInfo; (* [container.inspect()] *)
  s_now : Z                          (* [new Date()] *)
}.

Definition startVM (vmId userId : nat) (env : StartEnv) : Op VM :=
  found <- VM_findOne vmId userId ;;
  match found with
  | None => throw VMNotFound
  | Some vm =>
      if decide (status vm = running) then throw VMAlreadyRunning
      else if decide (status vm = terminated) then throw CannotStartTerminated
      else
        user <- User_findById userId ;;
        match user with
        | None => throw InsufficientCreditsToStart
        | Some user =>
            if decide (credits user < config.credits.vmCostPerHour)
            then throw InsufficientCreditsToStart
            else
              docker_ignore_304 (s_start env) ;;;
              info <- docker (s_inspect env) ;;
              let vm := set_lastStartedAt (Some (s_now env))
                          (set_ipAddress (IPAddress info) (set_status running vm)) in
              VM_save vmId vm ;;;
              ret vm
        end
  end.

Record StopEnv := mkStopEnv {
  t_stop : Outcome unit;  (* [container.stop()] *)
  t_now : Z               (* [Date.now()], [new Date()] *)
}.

Definition stopVM (vmId userId : nat) (env : StopEnv) : Op VM :=
  found <- VM_findOne vmId userId ;;
  match found with
  | None => throw VMNotFound
  | Some vm =>
      if decide (status vm ≠ running) then throw VMNotRunning
      else
        docker_ignore_304 (t_stop env) ;;;
        vm <- match lastStartedAt vm with
              | Some started =>
                  let runtime := runtime_seconds (t_now env) started in
                  let vm := set_totalRuntime (totalRuntime vm + runtime) vm in
                  let vm := set_creditsConsumed (creditsConsumed vm + creditsUsed runtime) vm in
                  User_inc_credits userId (- creditsUsed runtime) ;;;
                  ret vm
              | None => ret vm
              end ;;
        let vm := set_lastStoppedAt (Some (t_now env)) (set_status stopped vm) in
        VM_save vmId vm ;;;
        ret vm
  end.

(** [cleanup] is what the [try] block (inspect, stop if running, remove)
    ends with; the [catch] logs and goes on. *)
Definition terminateVM (vmId userId : nat) (cleanup : Outcome unit) : Op unit :=
  found <- VM_findOne vmId userId ;;
  match found with
  | None => throw VMNotFound
  | Some vm =>
      match cleanup with
      | Done _ => ret tt
      | Failed _ => ret tt   (* [console.error('Error removing container:', error)] *)
      end ;;;
      freePort (sshPort vm) ;;;
      VM_save vmId (set_status terminated vm)
  end.

(** [containerStatus] is [Some (Running info)] after a successful inspect
    and [None] ([null]) otherwise. *)
Definition getVMStatus (vmId userId : nat) (inspect : Outcome ContainerInfo)
    : Op (VM * option bool) :=
  found <- VM_findOne vmId userId ;;
  match found with
  | None => throw VMNotFound
  | Some vm =>
      match inspect with
      | Done info =>
          let actualStatus := if Running info then running else stopped in
          if decide (status vm ≠ terminated /\ status vm ≠ actualStatus)
          then
            let vm := set_status actualStatus vm in
            VM_save vmId vm ;;;
            ret (vm, Some (Running info))
          else ret (vm, Some (Running info))
      | Failed _ =>
          if decide (status vm ≠ terminated)
          then
            let vm := set_status error vm in
            VM_save vmId vm ;;;
            ret (vm, None)
          else ret (vm, None)
      end
  end.

(** Admin functions: they address the container, not the record. *)

Definition forceStopContainer (containerId : nat) (stop : Outcome unit) (now : Z)
    : Op unit :=
  docker stop ;;;
  found <- VM_findOne_by_container containerId ;;
  match found with
  | Some (id, vm) =>
      VM_save id (set_lastStoppedAt (Some now) (set_status stopped vm))
  | None => ret tt
  end.

Definition forceRemoveContainer (containerId : nat) (remove : Outcome unit)
    : Op unit :=
  docker remove ;;;
  found <- VM_findOne_by_container containerId ;;
  match found with
  | Some (id, vm) =>
      freePort (sshPort vm) ;;;
      VM_save id (set_status terminated vm)
  | None => ret tt
  end.

(** [attachToVM]: the record must exist, be owned by the caller and be
    [running]; [exec] is what [container.exec] and [exec.start] answer. *)
Definition attachToVM (vmId userId : nat) (exec : Outcome unit) : Op ExecStream :=
  found <- VM_findOne vmId userId ;;
  match found with
  | None => throw VMNotFound
  | Some vm =>
      if decide (status vm ≠ running) then throw VMNotRunning
      else
        docker exec ;;;
        ret (mkStream false [] [])
  end.

(** ** Terminal sessions (the WebSocket handler) *)

(** [ws.send(frame)]: delivered on an open socket; on a connecting one it
    throws and on a closing or closed one the frame is dropped. *)
Definition ws_send (f : Frame) (w : WebSocket) : WebSocket :=
  if decide (readyState w = OPEN)
  then mkWS (readyState w) (sent w ++ [f]) (closed_with w)
  else w.

(** [ws.close(code, reason)] starts the closing handshake. *)
Definition ws_close (code : Z) (reason : string) (w : WebSocket) : WebSocket :=
  match readyState w with
  | CLOSED | CLOSING => w
  | _ => mkWS CLOSING (sent w) (Some (code, reason))
  end.

(** [JSON.parse] keeps the last of several members with one key. *)
Fixpoint lookup_field (key : string) (fields : list (string * JSON)) : option JSON :=
  match fields with
  | [] => None
  | (k, v) :: rest =>
      match lookup_field key rest with
      | Some w => Some w
      | None => if decide (k = key) then Some v else None
      end
  end.

(** [message.key] on a parsed value other than [null]: [None] is
    [undefined]. Reading a property of [null] throws instead. *)
Definition js_get (key : string) (message : JSON) : option JSON :=
  match message with
  | JObject fields => lookup_field key fields
  | _ => None
  end.

Definition truthy (v : option JSON) : bool :=
  match v with
  | None | Some JNull => false
  | Some (JBool b) => b
  | Some (JNumber n) => negb (n =? 0)
  | Some (JString s) => negb (String.eqb s "")
  | Some (JArray _) | Some (JObject _) => true
  end.

(** Who is asking, as [verifyToken] and the user lookup see it. *)
Inductive TokenCheck :=
| NoToken                 (* no [token] parameter *)
| BadToken                (* [verifyToken] throws *)
| TokenFor (userId : nat).

Definition new_socket : WebSocket := mkWS OPEN [] None.

(** [wss.on('connection', ...)]: returns the socket as the handler leaves
    it; the session is in [connections] exactly when the attach succeeded. *)
Definition on_connection (token : TokenCheck) (vmIdParam : option nat)
    (exec : Outcome unit) (now : Z) (st : State) : State * WebSocket :=
  let ws := new_socket in
  match token with
  | NoToken => (st, ws_close 1008 "Missing authentication token" ws)
  | BadToken => (st, ws_close 1008 "Invalid authentication token" ws)
  | TokenFor userId =>
      match users st !! userId with
      | None => (st, ws_close 1008 "User not found" ws)
      | Some _ =>
          match vmIdParam with
          | None => (st, ws_close 1008 "Missing vmId parameter" ws)
          | Some vmId =>
              let connectionId := (userId, vmId, now) in
              let connection := mkConn ws userId vmId None in
              let st := set_connections (<[connectionId := connection]> (connections st)) st in
              match attachToVM vmId userId exec st with
              | (st, Resolved stream) =>
                  let ws := ws_send FConnected ws in
                  (set_connections
                     (<[connectionId := mkConn ws userId vmId (Some stream)]> (connections st)) st,
                   ws)
              | (st, Rejected _) =>
                  let ws := ws_close 1011 "Failed to connect to VM"
                              (ws_send (FError "Failed to connect to VM") ws) in
                  (set_connections (delete connectionId (connections st)) st, ws)
              end
          end
      end
  end.

Section MessageHandler.

(** [JSON.parse(data.toString())]; [None] when it throws a [SyntaxError]. *)
Variable JSON_parse : string -> option JSON.

(** The body of [ws.on('message', ...)] on the connection object it
    closes over. Whatever is thrown inside the [try] is logged. *)
Definition on_message (data : string) (connection : TerminalConnection)
    : TerminalConnection :=
  match JSON_parse data with
  | None => connection                 (* [SyntaxError], caught *)
  | Some JNull => connection           (* [TypeError] on [message.type], caught *)
  | Some message =>
      match js_get "type" message with
      | Some (JString type) =>
          if String.eqb type "input" then
            match stream connection, js_get "data" message with
            | Some s, Some (JString chunk) =>
                if ended s
                then (* write after end: the stream emits 'error' *)
                  mkConn (ws_send (FError "Container stream error") (ws connection))
                         (userId connection) (vmId connection) (stream connection)
                else
                  mkConn (ws connection) (userId connection) (vmId connection)
                         (Some (mkStream (ended s) (written s ++ [chunk]) (resized s)))
            | _, _ => connection       (* no stream, or [write] rejects the chunk *)
            end
          else if String.eqb type "resize" then
            match stream connection with
            | Some s =>
                if truthy (js_get "cols" message) && truthy (js_get "rows" message)
                then
                  match js_get "cols" message, js_get "rows" message with
                  | Some cols, Some rows =>
                      mkConn (ws connection) (userId connection) (vmId connection)
                             (Some (mkStream (ended s) (written s) (resized s ++ [(cols, rows)])))
                  | _, _ => connection
                  end
                else connection
            | None => connection
            end
          else if String.eqb type "ping" then
            mkConn (ws_send FPong (ws connection))
                   (userId connection) (vmId connection) (stream connection)
          else connection
      | _ => connection
      end
  end.

(** The handler registered for the session [id]: its connection object
    is the one stored in [connections]. *)
Definition ws_on_message (id : ConnId) (data : string) (st : State) : State :=
  set_connections (alter (on_message data) id (connections st)) st.

(** The message is not JSON, or its [type] is not one of the three the
    handler knows. *)
Definition not_understood (data : string) : Prop :=
  JSON_parse data = None \/
  exists message,
    JSON_parse data = Some message /\
    js_get "type" message ≠ Some (JString "input") /\
    js_get "type" message ≠ Some (JString "resize") /\
    js_get "type" message ≠ Some (JString "ping").

End MessageHandler.

(** [ws.on('close', ...)]: end the stream, drop the entry. *)
Definition ws_on_close (id : ConnId) (st : State) : State :=
  set_connections (delete id (connections st)) st.

(** The 30 s sweep: drop the entries whose socket is [CLOSED]. *)
Definition sweep (st : State) : State :=
  set_connections
    (filter (fun kv => readyState (ws kv.2) ≠ CLOSED) (connections st)) st.

(** [closeVMConnections(vmId)]: close and drop every entry of the VM. *)
Definition closeVMConnections (target : nat) (st : State) : State :=
  set_connections
    (filter (fun kv => vmId kv.2 ≠ target) (connections st)) st.

(** The sessions of a VM that are still in [connections]. *)
Definition sessions_of (target : nat) (st : State) : gmap ConnId TerminalConnection :=
  filter (fun kv => vmId kv.2 = target) (connections st).

(** ** Running an operation *)

Definition initial_state : State := mkState ∅ ∅ ∅ ∅.

(** A user document as [UserSchema] creates it. *)
Definition new_user : User := mkUser config.credits.default.

Definition balance (uid : nat) (st : State) : option Z :=
  credits <$> users st !! uid.

(** A run in which the daemon does what it is asked. *)
Definition healthy (container : nat) (now : Z) : ProvisionEnv :=
  mkProvisionEnv (Done tt) (Done tt) (Done container) (Done tt)
                 (Done (mkInfo true (Some "172.17.0.2"))) now.

Definition no_options : ProvisionOptions := mkOptions None None None.

(** * Vocabulary of the properties and scenarios *)

(** A [container.start()] or [container.stop()] the service accepts: it
    succeeded, or the daemon answered 304 (already in that state). *)
Definition tolerated (o : Outcome unit) : Prop :=
  match o with
  | Done _ => True
  | Failed c => c = 304
  end.

(** ** Effects of a stop *)

(** The document a successful [stopVM] saves. *)
Definition stopped_vm (now : Z) (vm : VM) : VM :=
  let billed :=
    match lastStartedAt vm with
    | Some started =>
        let runtime := runtime_seconds now started in
        set_creditsConsumed (creditsConsumed vm + creditsUsed runtime)
          (set_totalRuntime (totalRuntime vm + runtime) vm)
    | None => vm
    end in
  set_lastStoppedAt (Some now) (set_status stopped billed).

(** The [User] collection a successful [stopVM] leaves. *)
Definition billed_users (now : Z) (vm : VM) (us : gmap nat User) : gmap nat User :=
  match lastStartedAt vm with
  | Some started =>
      alter (fun u => mkUser (credits u + - creditsUsed (runtime_seconds now started)))
            (ownerId vm) us
  | None => us
  end.

(** ** Scenarios *)

(** The state of the billing scenario: one member with the default 100
    credits, hourly rate 10. *)
Definition one_member : State := set_users {[ 1%nat := new_user ]} initial_state.

Definition after_provision : State :=
  (provisionVM 1 "A" no_options (healthy 7 0) one_member).1.

Definition after_first_stop : State :=
  (stopVM 0 1 (mkStopEnv (Done tt) 1800000) after_provision).1.



(** A record that is [running] without a [lastStartedAt]: the container
    of a provision started but its inspect failed, so the record stayed
    [creating]; a later status query saw the container running. *)
Definition provision_cut_short : State :=
  (provisionVM 1 "A" no_options
     (mkProvisionEnv (Done tt) (Done tt) (Done 7%nat) (Done tt) (Failed 500) 0)
     one_member).1.

Definition reconciled_running : State :=
  (getVMStatus 0 1 (Done (mkInfo true None)) provision_cut_short).1.

(** The owner's records that are not [terminated]. *)
Definition non_terminated_of (userId : nat) (st : State) : list VM :=
  filter (fun v => ownerId v = userId /\ status v ≠ terminated) (map_to_list (vms st)).*2.

(** The owner's records the quota check of [provisionVM] counts. *)
Definition quota_count (userId : nat) (st : State) : Z :=
  Z.of_nat (length (filter (counts_for_quota userId) (map_to_list (vms st)).*2)).

(** Member 1 with three running VMs, then with the three of them marked
    [error] by status queries that could not reach the daemon. *)
Definition three_running : State :=
  let st := (provisionVM 1 "A" no_options (healthy 7 0) one_member).1 in
  let st := (provisionVM 1 "B" no_options (healthy 8 0) st).1 in
  (provisionVM 1 "C" no_options (healthy 9 0) st).1.

Definition three_in_error : State :=
  let st := (getVMStatus 0 1 (Failed 500) three_running).1 in
  let st := (getVMStatus 1 1 (Failed 500) st).1 in
  (getVMStatus 2 1 (Failed 500) st).1.

Definition poor_member : State := set_users {[ 2%nat := mkUser 5 ]} initial_state.

(** ** Operations as a transition system *)

Inductive Operation :=
| Provision (userId : nat) (vmName : string) (options : ProvisionOptions) (env : ProvisionEnv)
| Start (vmId userId : nat) (env : StartEnv)
| Stop (vmId userId : nat) (env : StopEnv)
| Terminate (vmId userId : nat) (cleanup : Outcome unit)
| StatusQuery (vmId userId : nat) (inspect : Outcome ContainerInfo)
| AdminForceStop (containerId : nat) (stop : Outcome unit) (now : Z)
| AdminForceRemove (containerId : nat) (remove : Outcome unit).

(** The state an operation leaves, whether it resolves or rejects. *)
Definition step (op : Operation) (st : State) : State :=
  match op with
  | Provision userId vmName options env => (provisionVM userId vmName options env st).1
  | Start vmId userId env => (startVM vmId userId env st).1
  | Stop vmId userId env => (stopVM vmId userId env st).1
  | Terminate vmId userId cleanup => (terminateVM vmId userId cleanup st).1
  | StatusQuery vmId userId inspect => (getVMStatus vmId userId inspect st).1
  | AdminForceStop containerId stop now => (forceStopContainer containerId stop now st).1
  | AdminForceRemove containerId remove => (forceRemoveContainer containerId remove st).1
  end.

Definition run (ops : list Operation) (st : State) : State :=
  foldl (fun st op => step op st) st ops.

Definition is_terminated (id : nat) (st : State) : Prop :=
  status <$> vms st !! id = Some terminated.

(** ** More scenarios and port vocabulary *)

(** A terminated record whose container outlived the cleanup of
    [terminateVM] (the daemon failed the stop or the remove). *)
Definition terminated_container_alive : State :=
  (terminateVM 0 1 (Failed 500) after_provision).1.

(** No two records that are not [terminated] hold the same port. *)
Definition ports_distinct (st : State) : Prop :=
  forall i j vi vj,
    vms st !! i = Some vi -> vms st !! j = Some vj ->
    status vi ≠ terminated -> status vj ≠ terminated ->
    sshPort vi = sshPort vj -> i = j.

Definition provision_or_terminate (op : Operation) : Prop :=
  match op with
  | Provision _ _ _ _ | Terminate _ _ _ => True
  | _ => False
  end.

(** A port is held when a record that is not [terminated] carries it. *)
Definition held (st : State) (port : Z) : Prop :=
  exists id v, vms st !! id = Some v /\ status v ≠ terminated /\ sshPort v = port.

(** The reading of C8 for a range that ends at [hi]: the port returned is
    in the range and is the lowest one not held, and the call fails only
    when every port of the range is held. *)
Definition reserve_claim (hi : Z) (st : State) : Prop :=
  match getNextAvailablePort st with
  | (_, Resolved p) =>
      config.vm.baseSSHPort <= p <= hi /\ ~ held st p /\
      forall q, config.vm.baseSSHPort <= q < p -> held st q
  | (_, Rejected _) =>
      forall q, config.vm.baseSSHPort <= q <= hi -> held st q
  end.

(** Every port from the base up to [hi] held by a running VM, one owner
    per VM. *)
Definition full_range (hi : Z) : State :=
  set_vms
    (map_seq 0
       ((fun p => mkVM (Z.to_nat p) (Z.to_nat p) "vm" running None p
                       config.vm.defaultImage config.vm.memoryLimit 512
                       (Some 0) None 0 0)
          <$> seqZ config.vm.baseSSHPort (hi - config.vm.baseSSHPort + 1)))
    initial_state.

(** Member 1 with VM A running and a terminal attached to it. *)
Definition terminal_attached : State :=
  (on_connection (TokenFor 1) (Some 0%nat) (Done tt) 5000 after_provision).1.

(** A stand-in for [JSON.parse] on three inputs. *)
Definition toy_parse (data : string) : option JSON :=
  if String.eqb data "null" then Some JNull
  else if String.eqb data "bye" then Some (JObject [("type", JString "bye")])
  else if String.eqb data "ping" then Some (JObject [("type", JString "ping")])
  else None.

(** * Properties *)

(** ** Unfolding operations *)

Ltac unfold_op :=
  unfold VM_find, VM_findOne, VM_findOne_by_container, VM_save, User_findById,
    User_inc_credits, freePort, docker, docker_ignore_304,
    bind, ret, throw, gets, modify in *.

Lemma docker_ignore_304_tolerated o st :
  tolerated o -> docker_ignore_304 o st = (st, Resolved tt).
Proof.
  destruct o as [[]|c]; simpl; [done|].
  intros ->. by rewrite decide_True.
Qed.

Lemma docker_ignore_304_not_tolerated o st :
  ~ tolerated o ->
  exists c, o = Failed c /\ docker_ignore_304 o st = (st, Rejected (DockerError c)).
Proof.
  destruct o as [[]|c]; simpl; [intros []; done|].
  intros Hc. exists c. by rewrite decide_False.
Qed.

Lemma VM_findOne_owned st vmId vm :
  vms st !! vmId = Some vm ->
  VM_findOne vmId (ownerId vm) st = (st, Resolved (Some vm)).
Proof. intros H. unfold_op. by rewrite H, decide_True. Qed.

(** ** Stop and billing *)

Lemma stopVM_running st vmId vm env :
  vms st !! vmId = Some vm ->
  status vm = running ->
  tolerated (t_stop env) ->
  stopVM vmId (ownerId vm) env st =
    (set_vms (<[vmId := stopped_vm (t_now env) vm]> (vms st))
       (set_users (billed_users (t_now env) vm (users st)) st),
     Resolved (stopped_vm (t_now env) vm)).
Proof.
  intros Hvm Hrun Htol. unfold stopVM, bind at 1.
  rewrite (VM_findOne_owned _ _ _ Hvm).
  rewrite decide_False by (rewrite Hrun; naive_solver).
  unfold bind at 1. rewrite docker_ignore_304_tolerated by done.
  unfold stopped_vm, billed_users.
  destruct (lastStartedAt vm) as [started|]; unfold_op; simpl; [done|].
  by destruct st.
Qed.


Lemma balance_billed_users now vm st st' :
  users st' = billed_users now vm (users st) ->
  balance (ownerId vm) st' =
    match lastStartedAt vm with
    | Some started =>
        (fun b => b - creditsUsed (runtime_seconds now started)) <$> balance (ownerId vm) st
    | None => balance (ownerId vm) st
    end.
Proof.
  intros Hu. unfold balance, billed_users in *. rewrite Hu.
  destruct (lastStartedAt vm) as [started|]; [|done].
  rewrite lookup_alter_eq. by destruct (users st !! ownerId vm) as [u|].
Qed.



(** C1 (as the code has it). A member with 100 credits provisions a VM and
    stops it eleven hours later: 110 credits are charged and the balance
    the stop leaves is -10, not the 0 a debit clamped at zero would leave. *)
Theorem stopVM_overdraws_balance :
  balance 1 after_provision = Some 100 /\
  status <$> vms after_provision !! 0%nat = Some running /\
  let '(st, r) := stopVM 0 1 (mkStopEnv (Done tt) 39600000) after_provision in
  (exists vm, r = Resolved vm /\ status vm = stopped /\ creditsConsumed vm = 110) /\
  balance 1 st = Some (-10) /\
  balance 1 st ≠ Some (Z.max 0 (100 - 110)).
Proof.
  vm_compute. split; [done|]. split; [done|]. split; [|done].
  eexists. split; [reflexivity|]. done.
Qed.

(** Whatever the balance, a stop that bills subtracts the charge from it
    and applies no floor. *)
Lemma stopVM_balance_unclamped st vmId vm env started b :
  vms st !! vmId = Some vm ->
  status vm = running ->
  lastStartedAt vm = Some started ->
  tolerated (t_stop env) ->
  balance (ownerId vm) st = Some b ->
  balance (ownerId vm) (stopVM vmId (ownerId vm) env st).1 =
    Some (b - creditsUsed (runtime_seconds (t_now env) started)).
Proof.
  intros Hvm Hrun Hstarted Htol Hb.
  rewrite (stopVM_running _ _ _ _ Hvm Hrun Htol). simpl.
  erewrite balance_billed_users by reflexivity.
  by rewrite Hstarted, Hb.
Qed.



Lemma reconciled_running_record :
  vms reconciled_running !! 0%nat =
    Some (mkVM 1 7 "A" running None 30000 "ubuntu:22.04" 536870912 512 None None 0 0).
Proof. reflexivity. Qed.

(** C10. Stopping a VM whose record is [running] but carries no
    [lastStartedAt] bills nothing: [totalRuntime], [creditsConsumed] and
    every balance are unchanged, while the record becomes [stopped] and
    [lastStoppedAt] is stamped. *)
Theorem stopVM_without_lastStartedAt st vmId vm env :
  vms st !! vmId = Some vm ->
  status vm = running ->
  lastStartedAt vm = None ->
  tolerated (t_stop env) ->
  exists st' vm',
    stopVM vmId (ownerId vm) env st = (st', Resolved vm') /\
    vms st' !! vmId = Some vm' /\
    totalRuntime vm' = totalRuntime vm /\
    creditsConsumed vm' = creditsConsumed vm /\
    users st' = users st /\
    status vm' = stopped /\
    lastStoppedAt vm' = Some (t_now env).
Proof.
  intros Hvm Hrun Hnone Htol.
  eexists _, _. split; [by apply stopVM_running|].
  unfold stopped_vm, billed_users. rewrite Hnone. simpl.
  by rewrite lookup_insert_eq.
Qed.

Lemma stopVM_without_lastStartedAt_witness :
  exists st' vm',
    stopVM 0 1 (mkStopEnv (Failed 304) 99000) reconciled_running = (st', Resolved vm') /\
    vms st' !! 0%nat = Some vm' /\
    totalRuntime vm' = 0 /\
    creditsConsumed vm' = 0 /\
    users st' = users reconciled_running /\
    status vm' = stopped /\
    lastStoppedAt vm' = Some 99000.
Proof.
  exact (stopVM_without_lastStartedAt reconciled_running 0%nat _
           (mkStopEnv (Failed 304) 99000)
           reconciled_running_record eq_refl eq_refl eq_refl).
Defined.

(** ** Illegal transitions *)





(** The same holds of a record in [error]. *)
Lemma startVM_accepts_error :
  let st := (getVMStatus 0 1 (Failed 500) after_first_stop).1 in
  status <$> vms st !! 0%nat = Some error /\
  status <$> vms (startVM 0 1 (mkStartEnv (Done tt) (Done (mkInfo true None)) 5000) st).1 !! 0%nat
    = Some running.
Proof. by vm_compute. Qed.

(** ** Provisioning preconditions *)

(** C7 (amended). [provisionVM] fails with the quota error whenever the
    owner's records that are [running], [stopped] or [creating] have
    reached [maxVMsPerUser]; below the quota it fails with the
    insufficient-credits error whenever the owner exists and has fewer
    credits than one hour costs. Either failure leaves the whole state
    unchanged: no record is created and no port is reserved. *)
Theorem provisionVM_rejections st userId vmName options env :
  (config.vm.maxVMsPerUser <= quota_count userId st ->
   exists e, provisionVM userId vmName options env st = (st, Rejected e) /\
             kind_of e = QuotaExceeded) /\
  (quota_count userId st < config.vm.maxVMsPerUser ->
   forall u, users st !! userId = Some u ->
   credits u < config.credits.vmCostPerHour ->
   exists e, provisionVM userId vmName options env st = (st, Rejected e) /\
             kind_of e = InsufficientCredits).
Proof.
  unfold quota_count. split.
  - intros Hq. exists MaxVMLimitReached. split; [|done].
    unfold provisionVM, bind at 1. unfold VM_find, gets at 1.
    by rewrite decide_True.
  - intros Hq u Hu Hc. exists InsufficientCreditsToProvision. split; [|done].
    unfold provisionVM, bind at 1. unfold VM_find, gets at 1.
    rewrite decide_False by lia.
    unfold bind at 1, User_findById, gets at 1. rewrite Hu.
    by rewrite decide_True.
Qed.

Lemma provisionVM_rejections_witness :
  (exists e, provisionVM 1 "D" no_options (healthy 10 0) three_running
               = (three_running, Rejected e) /\ kind_of e = QuotaExceeded) /\
  (exists e, provisionVM 2 "A" no_options (healthy 7 0) poor_member
               = (poor_member, Rejected e) /\ kind_of e = InsufficientCredits).
Proof.
  split.
  - apply (proj1 (provisionVM_rejections three_running 1 "D" no_options (healthy 10 0))).
    vm_compute. discriminate.
  - apply (proj2 (provisionVM_rejections poor_member 2 "A" no_options (healthy 7 0)))
      with (u := mkUser 5).
    + vm_compute. reflexivity.
    + reflexivity.
    + vm_compute. reflexivity.
Defined.

(** C7 (as stated) fails: with three records in [error] the owner holds
    as many non-terminated records as the quota allows, yet a further
    provision goes through, creates a fourth record and reserves a port. *)
Lemma provisionVM_ignores_error_records :
  ~ (forall st userId vmName options env,
        config.vm.maxVMsPerUser <= Z.of_nat (length (non_terminated_of userId st)) ->
        exists e, provisionVM userId vmName options env st = (st, Rejected e) /\
                  kind_of e = QuotaExceeded).
Proof.
  intros Hclaim.
  destruct (Hclaim three_in_error 1%nat "D" no_options (healthy 10 0))
    as (e & Hrun & _).
  - vm_compute. discriminate.
  - vm_compute in Hrun. discriminate.
Qed.

Lemma fourth_provision_over_three_errors :
  let outcome := provisionVM 1 "D" no_options (healthy 10 0) three_in_error in
  length (non_terminated_of 1 three_in_error) = 3%nat /\
  (exists id vm, outcome.2 = Resolved (id, vm) /\ sshPort vm = 30003 /\ status vm = running) /\
  length (non_terminated_of 1 outcome.1) = 4%nat /\
  30003 ∈ usedPorts outcome.1.
Proof.
  split; [by vm_compute|]. split; [|split; [by vm_compute|]].
  - eexists _, _. split; [by vm_compute|done].
  - apply (bool_decide_unpack _). by vm_compute.
Qed.

(** ** Permanence of [terminated] *)

(** C2 (as the code has it). [forceStopContainer] writes [stopped] into
    whatever record matches the container: a record that is [terminated]
    and whose container still runs leaves [terminated]. *)
Theorem forceStopContainer_revives_terminated :
  is_terminated 0 terminated_container_alive /\
  containerId <$> vms terminated_container_alive !! 0%nat = Some 7%nat /\
  let '(st, r) := forceStopContainer 7 (Done tt) 9000 terminated_container_alive in
  r = Resolved tt /\
  status <$> vms st !! 0%nat = Some stopped /\
  ~ is_terminated 0 st.
Proof. by vm_compute. Qed.

Lemma fresh_id_unused (db : gmap nat VM) : db !! fresh (dom db) = None.
Proof. apply not_elem_of_dom, is_fresh. Qed.

Lemma VM_insert_keeps (v : VM) st id w :
  vms st !! id = Some w -> vms (VM_insert v st).1 !! id = Some w.
Proof.
  intros Hw. unfold VM_insert. case_decide; simpl; [done|].
  rewrite lookup_insert_ne; [done|].
  intros <-. by rewrite fresh_id_unused in Hw.
Qed.

(** ** The allocator *)

(** The scan stops: a finite set cannot hold every port from [port] on. *)
Lemma scan_finds fuel (used U : gset Z) port :
  (forall x, x ∈ used -> port <= x -> x ∈ U) ->
  (size U < fuel)%nat ->
  exists p, scan fuel used port = Some p /\ port <= p /\ (p ∉ used) /\
            forall q, port <= q < p -> q ∈ used.
Proof.
  revert U port. induction fuel as [|fuel IH]; intros U port HU Hsize; [lia|].
  simpl. destruct (decide (port ∈ used)) as [Hin|Hout].
  - destruct (IH (U ∖ {[port]}) (port + 1)) as (p & Hp & Hle & Hnot & Hbelow).
    + intros x Hx Hlex. apply elem_of_difference. split; [apply HU; [done|lia]|].
      rewrite elem_of_singleton. lia.
    + assert (size (U ∖ {[port]}) < size U)%nat; [|lia].
      apply subset_size, subset_difference_elem_of, HU; [done|lia].
    + exists p. repeat split; [done|lia|done|].
      intros q Hq. destruct (decide (q = port)) as [->|]; [done|].
      apply Hbelow. lia.
  - exists port. repeat split; [lia|done|]. intros q Hq. lia.
Qed.

Lemma live_ports_spec (db : gmap nat VM) p :
  p ∈ live_ports db <->
  exists id v, db !! id = Some v /\ status v ≠ terminated /\ sshPort v = p.
Proof.
  unfold live_ports. rewrite elem_of_list_to_set, list_elem_of_fmap. split.
  - intros (v & -> & Hv). apply list_elem_of_filter in Hv as [Hst Hv].
    apply list_elem_of_fmap in Hv as ([id v'] & -> & Hv).
    apply elem_of_map_to_list in Hv. by exists id, v'.
  - intros (id & v & Hv & Hst & <-). exists v. split; [done|].
    apply list_elem_of_filter. split; [done|].
    apply list_elem_of_fmap. exists (id, v). split; [done|].
    by apply elem_of_map_to_list.
Qed.

(** What [getNextAvailablePort] does: the in-memory set is topped up with
    the ports of the non-terminated records, and the port returned, which
    joins the set, is the least one from [baseSSHPort] on that is not in
    it. *)
Lemma getNextAvailablePort_spec st :
  let used := usedPorts st ∪ live_ports (vms st) in
  exists p,
    getNextAvailablePort st = (set_usedPorts ({[p]} ∪ used) st, Resolved p) /\
    config.vm.baseSSHPort <= p /\
    (p ∉ used) /\
    forall q, config.vm.baseSSHPort <= q < p -> q ∈ used.
Proof.
  intros used.
  destruct (scan_finds (S (size used)) used used config.vm.baseSSHPort)
    as (p & Hp & Hle & Hnot & Hbelow); [done|lia|].
  exists p. split; [|done].
  unfold getNextAvailablePort. unfold_op. unfold live_ports in used. simpl.
  fold used. simpl in Hp. by rewrite Hp.
Qed.

Ltac case_inner :=
  match goal with
  | |- context [match ?x with _ => _ end] =>
      lazymatch x with
      | context [match _ with _ => _ end] => fail
      | _ => destruct x eqn:?
      end
  end.

(** What a provision does to the collection: nothing, or one new record
    under a fresh [_id], on a port that no non-terminated record holds. *)
Lemma provisionVM_vms userId vmName options env st :
  let st' := (provisionVM userId vmName options env st).1 in
  vms st' = vms st \/
  exists id v,
    vms st !! id = None /\
    vms st' = <[id := v]> (vms st) /\
    ownerId v = userId /\
    status v ≠ terminated /\
    config.vm.baseSSHPort <= sshPort v /\
    sshPort v ∉ usedPorts st ∪ live_ports (vms st).
Proof.
  destruct (getNextAvailablePort_spec st) as (p & Hrun & Hbase & Hfree & _).
  unfold provisionVM, VM_insert. unfold_op. simpl.
  repeat (first [rewrite Hrun | case_inner]; simplify_eq/=).
  all: first
    [ by left
    | right; eexists (fresh (dom (vms st))), _;
      split; [apply fresh_id_unused|];
      rewrite ?insert_insert_eq; split; [reflexivity|]; by simpl ].
Qed.

(** What a termination does to the collection: nothing when the record
    is not found, else the record is saved with status [terminated]. *)
Lemma terminateVM_vms vmId userId cleanup st :
  let st' := (terminateVM vmId userId cleanup st).1 in
  vms st' = vms st \/
  exists v, vms st !! vmId = Some v /\ ownerId v = userId /\
            vms st' = <[vmId := set_status terminated v]> (vms st).
Proof.
  unfold terminateVM. unfold_op. simpl.
  repeat (case_inner; simplify_eq/=); first [by left | right; by eexists].
Qed.

Lemma is_terminated_insert_keeps (db : gmap nat VM) id k v :
  (db !! k = None \/ status v = terminated) ->
  status <$> db !! id = Some terminated ->
  status <$> <[k := v]> db !! id = Some terminated.
Proof.
  intros Hk Hid. rewrite lookup_insert. case_decide as Heq; [|done].
  subst k. destruct Hk as [Hk|Hv]; [by rewrite Hk in Hid|].
  simpl. by rewrite Hv.
Qed.

Ltac other_record :=
  match goal with
  | H : vms ?st !! ?i = Some _, H' : status <$> vms ?st !! ?i = _ |- _ =>
      rewrite H in H'; simplify_eq/=; destruct_and?; try congruence;
      try match goal with n : ¬ _ |- _ => exfalso; apply n; congruence end
  end.

(** The operations other than the forced stop keep a terminated record
    terminated. *)
Lemma terminated_is_kept op st id :
  (forall containerId stop now, op ≠ AdminForceStop containerId stop now) ->
  is_terminated id st -> is_terminated id (step op st).
Proof.
  unfold is_terminated. intros Hop Hterm.
  destruct op as [userId vmName options env|vmId userId env|vmId userId env
                 |vmId userId cleanup|vmId userId inspect|c stop now|c remove]; simpl.
  - destruct (provisionVM_vms userId vmName options env st)
      as [->|(k & v & Hk & -> & _)]; [done|].
    apply is_terminated_insert_keeps; auto.
  - unfold startVM. unfold_op. simpl.
    repeat (case_inner; simplify_eq/=); try done.
    all: rewrite lookup_insert_ne; [done|]; intros ->; other_record.
  - unfold stopVM. unfold_op. simpl.
    repeat (case_inner; simplify_eq/=); try done.
    all: rewrite lookup_insert_ne; [done|]; intros ->; other_record.
  - destruct (terminateVM_vms vmId userId cleanup st)
      as [->|(v & Hv & _ & ->)]; [done|].
    apply is_terminated_insert_keeps; auto.
  - unfold getVMStatus. unfold_op. simpl.
    repeat (case_inner; simplify_eq/=); try done.
    all: rewrite lookup_insert_ne; [done|]; intros ->; other_record.
  - by destruct (Hop c stop now).
  - unfold forceRemoveContainer. unfold_op. simpl.
    repeat (case_inner; simplify_eq/=); try done.
    all: apply is_terminated_insert_keeps; auto.
Qed.

(** ** Port uniqueness *)

Lemma ports_distinct_initial : ports_distinct initial_state.
Proof. intros i j vi vj Hi. simpl in Hi. by rewrite lookup_empty in Hi. Qed.

Lemma ports_distinct_provision userId vmName options env st :
  ports_distinct st ->
  ports_distinct (step (Provision userId vmName options env) st).
Proof.
  intros Hinv. simpl.
  destruct (provisionVM_vms userId vmName options env st)
    as [Heq|(k & v & Hk & Heq & _ & _ & _ & Hfree)];
    intros i j vi vj; rewrite Heq; [apply Hinv|].
  assert (forall id w, vms st !! id = Some w -> status w ≠ terminated ->
                       sshPort w ≠ sshPort v) as Hnew.
  { intros id w Hw Hst Hp. apply Hfree, elem_of_union_r, live_ports_spec. eauto. }
  rewrite !lookup_insert. repeat case_decide; intros; simplify_eq/=.
  - done.
  - exfalso. by eapply Hnew.
  - exfalso. by eapply Hnew.
  - by eapply Hinv.
Qed.

Lemma ports_distinct_terminate vmId userId cleanup st :
  ports_distinct st ->
  ports_distinct (step (Terminate vmId userId cleanup) st).
Proof.
  intros Hinv. simpl.
  destruct (terminateVM_vms vmId userId cleanup st) as [Heq|(v & Hv & _ & Heq)];
    intros i j vi vj; rewrite Heq; [apply Hinv|].
  rewrite !lookup_insert. repeat case_decide; intros; simplify_eq/=.
  by eapply Hinv.
Qed.

(** At every state reached from a state with distinct ports by provisions
    and terminations, whatever the daemon answered along the way, no two
    non-terminated records hold the same port. *)
Lemma ports_distinct_run ops st :
  Forall provision_or_terminate ops ->
  ports_distinct st -> ports_distinct (run ops st).
Proof.
  unfold run. intros Hops. revert st.
  induction Hops as [|op ops Hop _ IH]; intros st Hinv; simpl; [done|].
  apply IH. destruct op; simpl in Hop; try done.
  - by apply ports_distinct_provision.
  - by apply ports_distinct_terminate.
Qed.

Lemma terminateVM_found st vmId v cleanup :
  vms st !! vmId = Some v ->
  terminateVM vmId (ownerId v) cleanup st =
    (set_vms (<[vmId := set_status terminated v]> (vms st))
       (set_usedPorts (usedPorts st ∖ {[sshPort v]}) st),
     Resolved tt).
Proof.
  intros Hv. unfold terminateVM, bind at 1.
  rewrite (VM_findOne_owned _ _ _ Hv). by destruct cleanup.
Qed.

(** The first termination of a record takes its port out of the
    allocator's sight: it is neither in the in-memory set nor held by a
    non-terminated record, so the next scan stops at it or below it. *)
Lemma terminateVM_frees_port st vmId v cleanup :
  ports_distinct st ->
  vms st !! vmId = Some v ->
  status v ≠ terminated ->
  config.vm.baseSSHPort <= sshPort v ->
  let st' := (terminateVM vmId (ownerId v) cleanup st).1 in
  (sshPort v ∉ usedPorts st' ∪ live_ports (vms st')) /\
  exists p, (getNextAvailablePort st').2 = Resolved p /\ p <= sshPort v.
Proof.
  intros Hinv Hv Hst Hbase st'.
  assert (sshPort v ∉ usedPorts st' ∪ live_ports (vms st')) as Hfree.
  { subst st'. rewrite (terminateVM_found _ _ _ _ Hv). simpl.
    rewrite elem_of_union, elem_of_difference, live_ports_spec.
    intros [[_ Hp]|(id & w & Hw & Hstw & Hpw)]; [by apply Hp, elem_of_singleton|].
    rewrite lookup_insert in Hw. case_decide; simplify_eq/=.
    assert (id = vmId) by (by eapply Hinv). done. }
  split; [done|].
  destruct (getNextAvailablePort_spec st') as (p & Hrun & _ & _ & Hbelow).
  exists p. rewrite Hrun. split; [done|].
  destruct (decide (p <= sshPort v)) as [|Hgt]; [done|].
  exfalso. apply Hfree, Hbelow. lia.
Qed.

(** C3 (as the code has it). Member 1 provisions A (port 30000) and
    terminates it. The port leaves the in-memory set and the allocator
    hands it to the next provision, but the record of A still holds
    [sshPort = 30000] under the unique index of the collection: the insert
    of the new record is rejected, no record is created, and the port stays
    in the in-memory set, so the provision after that one skips it. *)
Theorem provisionVM_cannot_reuse_port :
  let terminated_A := (terminateVM 0 1 (Done tt) after_provision).1 in
  let again := provisionVM 1 "B" no_options (healthy 8 100) terminated_A in
  let once_more := provisionVM 1 "C" no_options (healthy 9 200) again.1 in
  sshPort <$> vms after_provision !! 0%nat = Some 30000 /\
  is_terminated 0 terminated_A /\
  (30000 ∉ usedPorts terminated_A ∪ live_ports (vms terminated_A)) /\
  (getNextAvailablePort terminated_A).2 = Resolved 30000 /\
  again.2 = Rejected DuplicateKey /\
  vms again.1 = vms terminated_A /\
  30000 ∈ usedPorts again.1 /\
  (sshPort <$> (snd <$> (match once_more.2 with Resolved r => Some r | Rejected _ => None end)))
    = Some 30001.
Proof.
  repeat split; by vm_compute.
Qed.

(** ** What the allocator returns *)

(** C8 (amended). [getNextAvailablePort] always returns: it first adds the
    ports of all non-terminated records to the in-memory set, then returns
    (and adds) the lowest port from [baseSSHPort] upward that is not in the
    set. The port is therefore never below the base and never held by a
    non-terminated record. No upper bound is configured and no exhaustion
    error exists. *)
Theorem getNextAvailablePort_lowest_unreserved st :
  let used := usedPorts st ∪ live_ports (vms st) in
  exists p,
    getNextAvailablePort st = (set_usedPorts ({[p]} ∪ used) st, Resolved p) /\
    config.vm.baseSSHPort <= p /\
    (p ∉ used) /\
    (forall q, config.vm.baseSSHPort <= q < p -> q ∈ used) /\
    ~ held st p.
Proof.
  intros used.
  destruct (getNextAvailablePort_spec st) as (p & Hrun & Hbase & Hfree & Hbelow).
  exists p. repeat split; try done.
  intros Hheld. apply Hfree, elem_of_union_r, live_ports_spec, Hheld.
Qed.

Lemma getNextAvailablePort_lowest_unreserved_witness :
  exists p,
    (getNextAvailablePort after_provision).2 = Resolved p /\
    config.vm.baseSSHPort <= p /\
    ~ held after_provision p.
Proof.
  destruct (getNextAvailablePort_lowest_unreserved after_provision)
    as (p & Hrun & Hbase & _ & _ & Hheld).
  exists p. rewrite Hrun. split; [reflexivity|]. split; [exact Hbase|exact Hheld].
Defined.

Lemma full_range_held hi q :
  config.vm.baseSSHPort <= q <= hi -> held (full_range hi) q.
Proof.
  intros Hq. exists (Z.to_nat (q - config.vm.baseSSHPort)). eexists.
  split; [|split].
  - unfold full_range. simpl.
    rewrite lookup_map_seq_0, list_lookup_fmap, lookup_seqZ_lt by lia.
    reflexivity.
  - done.
  - simpl. lia.
Qed.

(** C8 (as stated) fails: whatever upper end the range is given, with
    every port of the range held the allocator neither fails nor stays in
    the range, it returns the port after the range. *)
Lemma getNextAvailablePort_has_no_upper_bound :
  ~ exists hi, config.vm.baseSSHPort <= hi /\ forall st, reserve_claim hi st.
Proof.
  intros (hi & Hhi & Hclaim). specialize (Hclaim (full_range hi)).
  unfold reserve_claim in Hclaim.
  destruct (getNextAvailablePort_spec (full_range hi))
    as (p & Hrun & Hbase & Hfree & _).
  rewrite Hrun in Hclaim. destruct Hclaim as (Hrange & Hnot & _).
  apply Hnot, full_range_held, Hrange.
Qed.

(** With the three ports 30000 to 30002 held, the call returns 30003. *)
Lemma getNextAvailablePort_past_three :
  (getNextAvailablePort (full_range 30002)).2 = Resolved 30003.
Proof. by vm_compute. Qed.

(** ** Terminal sessions and termination *)

(** No path of [terminateVM] touches [connections]. *)
Lemma terminateVM_connections vmId userId cleanup st :
  connections (terminateVM vmId userId cleanup st).1 = connections st.
Proof.
  unfold terminateVM. unfold_op. simpl.
  by repeat (case_inner; simplify_eq/=).
Qed.

(** [closeVMConnections], had it been called, leaves no session of the VM. *)
Lemma closeVMConnections_closes_all target st :
  sessions_of target (closeVMConnections target st) = ∅.
Proof.
  unfold sessions_of, closeVMConnections. simpl.
  apply map_eq. intros id. rewrite lookup_empty.
  apply map_lookup_filter_None. right. intros c Hc Hvm.
  apply map_lookup_filter_Some in Hc as [_ Hne]. by apply Hne.
Qed.


(** ** Inbound messages that are not understood *)

Section Ignored.

Variable JSON_parse : string -> option JSON.

Lemma on_message_not_understood data connection :
  not_understood JSON_parse data -> on_message JSON_parse data connection = connection.
Proof.
  unfold on_message.
  intros [->|(message & -> & Hinput & Hresize & Hping)]; [done|].
  destruct message; try done.
  destruct (js_get "type" (JObject fields)) as [[| | |type| |]|]; try done.
  destruct (String.eqb_spec type "input") as [->|_]; [done|].
  destruct (String.eqb_spec type "resize") as [->|_]; [done|].
  destruct (String.eqb_spec type "ping") as [->|_]; done.
Qed.

(** C9. An inbound message that is not valid JSON, or whose [type] is
    none of [input], [resize] and [ping], changes nothing: the session
    entry stays in [connections] with its socket and stream as they
    were, and no frame is sent. *)
Theorem message_not_understood_is_ignored id data st :
  not_understood JSON_parse data ->
  ws_on_message JSON_parse id data st = st /\
  forall connection,
    connections st !! id = Some connection ->
    on_message JSON_parse data connection = connection /\
    connections (ws_on_message JSON_parse id data st) !! id = Some connection.
Proof.
  intros Hdata.
  assert (ws_on_message JSON_parse id data st = st) as Heq.
  { unfold ws_on_message. rewrite alter_id; [by destruct st|].
    intros c _. by apply on_message_not_understood. }
  split; [done|]. intros c Hc. rewrite Heq.
  split; [by apply on_message_not_understood|done].
Qed.

End Ignored.

Lemma message_not_understood_is_ignored_witness :
  ws_on_message toy_parse (1%nat, 0%nat, 5000) "{oops" terminal_attached = terminal_attached /\
  ws_on_message toy_parse (1%nat, 0%nat, 5000) "bye" terminal_attached = terminal_attached.
Proof.
  split.
  - apply (message_not_understood_is_ignored toy_parse (1%nat, 0%nat, 5000) "{oops").
    left. reflexivity.
  - apply (message_not_understood_is_ignored toy_parse (1%nat, 0%nat, 5000) "bye").
    right. eexists. split; [reflexivity|]. simpl. repeat split; discriminate.
Defined.

(** A ping, by contrast, is answered with one [pong]. *)
Lemma ping_is_answered :
  sent <$> (ws <$> connections
              (ws_on_message toy_parse (1%nat, 0%nat, 5000) "ping" terminal_attached)
              !! (1%nat, 0%nat, 5000))
    = Some [FConnected; FPong].
Proof. by vm_compute. Qed.
